(** * vault/tempcreds.go: the temporary-credentials provider

    A shallow embedding of [TempCredentialsProvider] (package [vault]) and
    the properties of its four-path credential resolution.

    The provider talks to five collaborators that live outside the file:
    the master-credentials accessor, the STS client, the keyring-backed
    session store, the MFA prompt of the configuration, and the clock.
    Their answers are oracles over the history of calls made so far, so a
    theorem that quantifies over the environment covers every behaviour a
    collaborator can show.  Each call is recorded in a trace (newest event
    first); the properties about "which calls are made" are statements on
    that trace. *)

From Stdlib Require Import ZArith String List Bool Lia.
From stdpp Require Import base strings gmap list pretty.

Local Open Scope string_scope.
Local Open Scope Z_scope.

(** ** Data of the SDK packages the provider uses *)

(** [credentials.Value] of the SDK: plain strings, the zero value is all
    empty. *)
Module credentials.
Record Value : Type := mkValue {
  AccessKeyID : string;
  SecretAccessKey : string;
  SessionToken : string;
  ProviderName : string
}.

Definition zero : Value := mkValue "" "" "" "".
End credentials.

(** [sts.Credentials] and the two request types.  In the SDK every field is
    a pointer; a token that comes back from STS or from the session store
    carries all four fields, and the model keeps them as plain values.
    The request fields stay optional: the provider sets some of them only
    under a condition, and [Some] stands for [aws.String] / [aws.Int64]. *)
Module sts.
Record Credentials : Type := mkCredentials {
  AccessKeyId : string;
  SecretAccessKey : string;
  SessionToken : string;
  Expiration : Z
}.

Record GetSessionTokenInput : Type := mkGetSessionTokenInput {
  gst_DurationSeconds : option Z;
  gst_SerialNumber : option string;
  gst_TokenCode : option string
}.

Record AssumeRoleInput : Type := mkAssumeRoleInput {
  RoleArn : option string;
  RoleSessionName : option string;
  DurationSeconds : option Z;
  ExternalId : option string;
  SerialNumber : option string;
  TokenCode : option string
}.
End sts.

(** Go errors.  [errors.New] allocates a fresh value, so an error made in
    this file is never equal to one handed back by a collaborator: the two
    origins are two constructors. *)
Inductive error : Type :=
| errors_New (text : string)
| Foreign (code : string).

(** A pointer-valued result (a pointer and an error): every return
    statement of the file gives either [(nil, err)] or [(value, nil)]. *)
Inductive result (A : Type) : Type :=
| Ok (a : A)
| Err (e : error).
Arguments Ok {A} a.
Arguments Err {A} e.

(** A call either returns or panics (slice bounds out of range). *)
Inductive outcome (A : Type) : Type :=
| Returns (a : A)
| Panics.
Arguments Returns {A} a.
Arguments Panics {A}.

(** ** Calls to the collaborators *)

Inductive Event : Type :=
| EvMasterExpire
| EvMasterGet
| EvPrompt (message : string)
| EvGetSessionToken (region : string) (params : sts.GetSessionTokenInput)
| EvAssumeRole (base : credentials.Value) (region : string)
               (input : sts.AssumeRoleInput)
| EvSessionsRetrieve (profile mfaSerial : string)
| EvSessionsStore (profile mfaSerial : string) (session : sts.Credentials)
| EvSetExpiration (expiration window : Z)
| EvNow.

Definition History : Type := list Event.

(** The [Config] fields the file reads.  Durations are [time.Duration]
    nanoseconds; [MfaPrompt] is the Go function value, returning the pair
    [(token, err)] with [None] for a nil error. *)
Record Config : Type := mkConfig {
  CredentialsName : string;
  RoleARN : string;
  ExternalID : string;
  RoleSessionName : string;
  MfaSerial : string;
  MfaToken : string;
  MfaPrompt : History -> string -> string * option string;
  NoSession : bool;
  SessionDuration : Z;
  AssumeRoleDuration : Z;
  Region : string
}.

(** The world outside the provider. *)
Record Env : Type := mkEnv {
  (** [p.masterCreds.Get()] *)
  master_Get : History -> credentials.Value * option string;
  (** [client.GetSessionToken(params)] on a client built from the master
      credentials and a region *)
  client_GetSessionToken :
    History -> string -> sts.GetSessionTokenInput -> string + sts.Credentials;
  (** [client.AssumeRole(input)] on a client built from static credentials
      and a region *)
  client_AssumeRole :
    History -> credentials.Value -> string -> sts.AssumeRoleInput ->
    string + sts.Credentials;
  (** backend failures of the keyring behind the session store *)
  keyring_read_failure : History -> string -> string -> option string;
  keyring_write_failure :
    History -> string -> string -> sts.Credentials -> option string;
  (** [time.Now().UTC().UnixNano()] *)
  time_Now : History -> Z
}.

(** ** The provider's state *)

(** [forceSessionRefresh] is the struct field; [Expiry] is the embedded
    [credentials.Expiry]; [sessions] is the content of the store behind
    [p.sessions]; [trace] is the history of collaborator calls. *)
Record State : Type := mkState {
  forceSessionRefresh : bool;
  Expiry : option (Z * Z);
  sessions : gmap (string * string) sts.Credentials;
  trace : History
}.

Definition record (e : Event) (s : State) : State :=
  mkState (forceSessionRefresh s) (Expiry s) (sessions s) (e :: trace s).

Definition set_forceSessionRefresh (b : bool) (s : State) : State :=
  mkState b (Expiry s) (sessions s) (trace s).

Definition set_Expiry (x : Z * Z) (s : State) : State :=
  mkState (forceSessionRefresh s) (Some x) (sessions s) (trace s).

Definition set_sessions (m : gmap (string * string) sts.Credentials)
    (s : State) : State :=
  mkState (forceSessionRefresh s) (Expiry s) m (trace s).

(** ** A state monad with panics *)

Definition M (A : Type) : Type := State -> outcome A * State.

Definition ret {A} (a : A) : M A := fun s => (Returns a, s).

Definition bind {A B} (m : M A) (k : A -> M B) : M B :=
  fun s =>
    match m s with
    | (Returns a, s') => k a s'
    | (Panics, s') => (Panics, s')
    end.

Definition panic {A} : M A := fun s => (Panics, s).

Notation "'let*' x ':=' m 'in' k" := (bind m (fun x => k))
  (at level 10, x pattern, m at level 100, k at level 200).

(** [ask oracle ev]: consult a collaborator on the history so far, then
    record the call. *)
Definition ask {A} (oracle : History -> A) (ev : Event) : M A :=
  fun s => (Returns (oracle (trace s)), record ev s).

Definition go_error (e : option string) : option error := Foreign <$> e.

Definition go_result {A} (r : string + A) : result A :=
  match r with
  | inl e => Err (Foreign e)
  | inr a => Ok a
  end.

(** [s[len(s)-4:]], the argument of the log lines: panics on a string of
    fewer than four bytes. *)
Definition last4 (s : string) : M string :=
  if (Z.of_nat (String.length s) - 4 <? 0)%Z then panic
  else ret (String.substring (String.length s - 4)%nat 4 s).

(** [time.Duration] constants, in nanoseconds, and [int64(d.Seconds())].
    The code computes it through [float64]; for a duration of magnitude
    below 2^24 seconds (16777216 s, some 194 days) the rounded sum of
    [Seconds()] stays below the next integer and the result is the whole
    seconds of [d], which is what this definition gives.  From 2^24 seconds
    on the code can round up by one; a statement about the duration that
    is sent carries the bound as a hypothesis. *)
Definition Second : Z := 1000000000.
Definition Minute : Z := 60 * Second.
Definition DefaultExpirationWindow : Z := 5 * Minute.
Definition Seconds (d : Z) : Z := Z.quot d Second.

(** Field updates of the request structs. *)
Definition gst_with_SerialNumber (v : string) (p : sts.GetSessionTokenInput)
    : sts.GetSessionTokenInput :=
  sts.mkGetSessionTokenInput (sts.gst_DurationSeconds p) (Some v)
    (sts.gst_TokenCode p).

Definition gst_with_TokenCode (v : string) (p : sts.GetSessionTokenInput)
    : sts.GetSessionTokenInput :=
  sts.mkGetSessionTokenInput (sts.gst_DurationSeconds p)
    (sts.gst_SerialNumber p) (Some v).

Definition with_ExternalId (v : string) (i : sts.AssumeRoleInput)
    : sts.AssumeRoleInput :=
  sts.mkAssumeRoleInput (sts.RoleArn i) (sts.RoleSessionName i)
    (sts.DurationSeconds i) (Some v) (sts.SerialNumber i) (sts.TokenCode i).

Definition with_SerialNumber (v : string) (i : sts.AssumeRoleInput)
    : sts.AssumeRoleInput :=
  sts.mkAssumeRoleInput (sts.RoleArn i) (sts.RoleSessionName i)
    (sts.DurationSeconds i) (sts.ExternalId i) (Some v) (sts.TokenCode i).

Definition with_TokenCode (v : string) (i : sts.AssumeRoleInput)
    : sts.AssumeRoleInput :=
  sts.mkAssumeRoleInput (sts.RoleArn i) (sts.RoleSessionName i)
    (sts.DurationSeconds i) (sts.ExternalId i) (sts.SerialNumber i) (Some v).

(** The error the session store gives on a lookup that finds nothing. *)
Definition NotFoundError : error := Foreign "NotFoundError".

(** ** The provider *)

Section Provider.
Variable env : Env.
Variable config : Config.

(** *** Collaborator calls *)

Definition masterCreds_Get : M (credentials.Value * option error) :=
  let* r := ask (master_Get env) EvMasterGet in
  ret (fst r, go_error (snd r)).

Definition masterCreds_Expire : M unit :=
  fun s => (Returns tt, record EvMasterExpire s).

Definition config_MfaPrompt (message : string)
    : M (string * option error) :=
  let* r := ask (fun h => MfaPrompt config h message) (EvPrompt message) in
  ret (fst r, go_error (snd r)).

Definition sts_GetSessionToken (region : string)
    (params : sts.GetSessionTokenInput) : M (result sts.Credentials) :=
  let* r := ask (fun h => client_GetSessionToken env h region params)
                (EvGetSessionToken region params) in
  ret (go_result r).

Definition sts_AssumeRole (base : credentials.Value) (region : string)
    (input : sts.AssumeRoleInput) : M (result sts.Credentials) :=
  let* r := ask (fun h => client_AssumeRole env h base region input)
                (EvAssumeRole base region input) in
  ret (go_result r).

Definition time_Now_UnixNano : M Z := ask (time_Now env) EvNow.

(** Modelled from the spec: [KeyringSessions.Retrieve] of sessions.go,
    which is not among the sources.  The store is keyed by the literal
    pair (account identity, MFA device identifier); a lookup gives the
    stored token, a not-found error, or the error of a backend
    failure. *)
Definition sessions_Retrieve (profile mfaSerial : string)
    : M (result sts.Credentials) :=
  fun s =>
    (Returns
       match keyring_read_failure env (trace s) profile mfaSerial with
       | Some e => Err (Foreign e)
       | None =>
           match sessions s !! (profile, mfaSerial) with
           | Some session => Ok session
           | None => Err NotFoundError
           end
       end,
     record (EvSessionsRetrieve profile mfaSerial) s).

(** Modelled from the spec: [KeyringSessions.Store] of sessions.go, which
    is not among the sources.  A store either fails in the backend and
    leaves the content as it was, or replaces the entry of the key. *)
Definition sessions_Store (profile mfaSerial : string)
    (session : sts.Credentials) : M (option error) :=
  fun s =>
    let s' := record (EvSessionsStore profile mfaSerial session) s in
    match keyring_write_failure env (trace s) profile mfaSerial session with
    | Some e => (Returns (Some (Foreign e)), s')
    | None =>
        (Returns None,
         set_sessions (<[(profile, mfaSerial) := session]> (sessions s)) s')
    end.

(** Modelled from the spec: the embedded [credentials.Expiry] of the SDK
    (the ExpiryTracker): the call records the instant and the window. *)
Definition SetExpiration (expiration window : Z) : M unit :=
  fun s =>
    (Returns tt,
     set_Expiry (expiration, window)
       (record (EvSetExpiration expiration window) s)).

Definition get_forceSessionRefresh : M bool :=
  fun s => (Returns (forceSessionRefresh s), s).

(** *** The methods of [TempCredentialsProvider] *)

Definition ForceRefresh : M unit :=
  let* _ := masterCreds_Expire in
  fun s => (Returns tt, set_forceSessionRefresh true s).

Definition createSessionToken : M (result sts.Credentials) :=
  let params :=
    sts.mkGetSessionTokenInput
      (Some (Seconds (SessionDuration config))) None None in
  let* mfa :=
    if negb (String.eqb (MfaSerial config) "") then
      let params := gst_with_SerialNumber (MfaSerial config) params in
      if String.eqb (MfaToken config) "" then
        let* (token, err) :=
          config_MfaPrompt
            ("Enter token for " +:+ MfaSerial config +:+ ": ") in
        match err with
        | Some e => ret (Err e)
        | None => ret (Ok (gst_with_TokenCode token params))
        end
      else ret (Ok (gst_with_TokenCode (MfaToken config) params))
    else ret (Ok params) in
  match mfa with
  | Err e => ret (Err e)
  | Ok params =>
      let* r := sts_GetSessionToken (Region config) params in
      match r with
      | Err e => ret (Err e)
      | Ok resp => ret (Ok resp)
      end
  end.

Definition getSessionToken : M (result sts.Credentials) :=
  let* force := get_forceSessionRefresh in
  if force then createSessionToken
  else
    let* r := sessions_Retrieve (CredentialsName config) (MfaSerial config) in
    match r with
    | Err _ =>
        let* r := createSessionToken in
        match r with
        | Err e => ret (Err e)
        | Ok session =>
            let* err :=
              sessions_Store (CredentialsName config) (MfaSerial config)
                session in
            match err with
            | Some e => ret (Err e)
            | None => ret (Ok session)
            end
        end
    | Ok session => ret (Ok session)
    end.

Definition roleSessionName : M string :=
  if negb (String.eqb (RoleSessionName config) "") then
    ret (RoleSessionName config)
  else
    let* now := time_Now_UnixNano in
    ret (pretty now).

Definition assumeRoleFromSession (session : sts.Credentials)
    : M (result sts.Credentials) :=
  let base :=
    credentials.mkValue (sts.AccessKeyId session)
      (sts.SecretAccessKey session) (sts.SessionToken session) "" in
  let* name := roleSessionName in
  let input :=
    sts.mkAssumeRoleInput (Some (RoleARN config)) (Some name)
      (Some (Seconds (AssumeRoleDuration config))) None None None in
  let input :=
    if negb (String.eqb (ExternalID config) "") then
      with_ExternalId (ExternalID config) input
    else input in
  let* r := sts_AssumeRole base (Region config) input in
  match r with
  | Err e => ret (Err e)
  | Ok resp => ret (Ok resp)
  end.

Definition assumeRoleFromCreds (creds : credentials.Value)
    : M (result sts.Credentials) :=
  if String.eqb (RoleARN config) "" then
    ret (Err (errors_New "No role defined"))
  else
    let* name := roleSessionName in
    let input :=
      sts.mkAssumeRoleInput (Some (RoleARN config)) (Some name)
        (Some (Seconds (AssumeRoleDuration config))) None None None in
    let input :=
      if negb (String.eqb (ExternalID config) "") then
        with_ExternalId (ExternalID config) input
      else input in
    let* mfa :=
      if negb (String.eqb (MfaSerial config) "") then
        let input := with_SerialNumber (MfaSerial config) input in
        if String.eqb (MfaToken config) "" then
          let* (token, err) :=
            config_MfaPrompt
              ("Enter token for " +:+ MfaSerial config +:+ ": ") in
          match err with
          | Some e => ret (Err e)
          | None => ret (Ok (with_TokenCode token input))
          end
        else ret (Ok (with_TokenCode (MfaToken config) input))
      else ret (Ok input) in
    match mfa with
    | Err e => ret (Err e)
    | Ok input =>
        let* r := sts_AssumeRole creds (Region config) input in
        match r with
        | Err e => ret (Err e)
        | Ok resp => ret (Ok resp)
        end
    end.

Definition value_of (c : sts.Credentials) : credentials.Value :=
  credentials.mkValue (sts.AccessKeyId c) (sts.SecretAccessKey c)
    (sts.SessionToken c) "".

Definition getCredsWithSession : M (credentials.Value * option error) :=
  let* r := getSessionToken in
  match r with
  | Err _ => ret (credentials.zero, None)
  | Ok session =>
      let* _ := SetExpiration (sts.Expiration session)
                  DefaultExpirationWindow in
      let value := value_of session in
      let* _ := last4 (sts.AccessKeyId session) in
      ret (value, None)
  end.

Definition getCredsWithSessionAndRole
    : M (credentials.Value * option error) :=
  let* r := getSessionToken in
  match r with
  | Err _ => ret (credentials.zero, None)
  | Ok session =>
      let* r := assumeRoleFromSession session in
      match r with
      | Err e => ret (credentials.zero, Some e)
      | Ok role =>
          let* _ := SetExpiration (sts.Expiration role)
                      DefaultExpirationWindow in
          let creds := value_of role in
          let* _ := last4 (sts.AccessKeyId session) in
          let* _ := last4 (sts.AccessKeyId role) in
          ret (creds, None)
      end
  end.

Definition getCredsWithRole : M (credentials.Value * option error) :=
  if String.eqb (RoleARN config) "" then
    ret (credentials.zero, Some (errors_New "No role defined"))
  else
    let* (creds, err) := masterCreds_Get in
    match err with
    | Some e => ret (credentials.zero, Some e)
    | None =>
        let* r := assumeRoleFromCreds creds in
        match r with
        | Err e => ret (credentials.zero, Some e)
        | Ok role =>
            let* _ := SetExpiration (sts.Expiration role)
                        DefaultExpirationWindow in
            let* _ := last4 (sts.AccessKeyId role) in
            ret (value_of role, None)
        end
    end.

Definition Retrieve : M (credentials.Value * option error) :=
  if NoSession config && String.eqb (RoleARN config) "" then
    masterCreds_Get
  else if NoSession config then getCredsWithRole
  else if String.eqb (RoleARN config) "" then getCredsWithSession
  else getCredsWithSessionAndRole.

End Provider.

(** ** Reading the trace *)

(** The calls made between two states: the part of the later trace that
    was added on top of the earlier one (newest first). *)
Definition emitted (s s' : State) : History :=
  take (length (trace s') - length (trace s)) (trace s').

Definition is_elevate (e : Event) : bool :=
  match e with EvGetSessionToken _ _ => true | _ => false end.

Definition is_assume (e : Event) : bool :=
  match e with EvAssumeRole _ _ _ => true | _ => false end.

Definition is_prompt (e : Event) : bool :=
  match e with EvPrompt _ => true | _ => false end.

Definition is_cache_read (e : Event) : bool :=
  match e with EvSessionsRetrieve _ _ => true | _ => false end.

Definition is_cache_write (e : Event) : bool :=
  match e with EvSessionsStore _ _ _ => true | _ => false end.

Definition is_SetExpiration (e : Event) : bool :=
  match e with EvSetExpiration _ _ => true | _ => false end.

Definition count (f : Event -> bool) (h : History) : nat :=
  length (List.filter f h).

(** ** The four paths, as the specification names them *)

Inductive ResolutionPath : Type :=
| MasterOnly
| RoleFromMaster
| SessionOnly
| SessionThenRole.

Definition hasRole (config : Config) : bool :=
  negb (String.eqb (RoleARN config) "").

Definition path_of (noSession hasRole : bool) : ResolutionPath :=
  match noSession, hasRole with
  | true, false => MasterOnly
  | true, true => RoleFromMaster
  | false, false => SessionOnly
  | false, true => SessionThenRole
  end.

Definition run_path (env : Env) (config : Config) (p : ResolutionPath)
    : M (credentials.Value * option error) :=
  match p with
  | MasterOnly => masterCreds_Get env
  | RoleFromMaster => getCredsWithRole env config
  | SessionOnly => getCredsWithSession env config
  | SessionThenRole => getCredsWithSessionAndRole env config
  end.

(** The session-store key of a configuration. *)
Definition key (config : Config) : string * string :=
  (CredentialsName config, MfaSerial config).

(** The MFA fields of a request that uses the literal code: none without
    a device, else the device and the code. *)
Definition literal_mfa (config : Config) : option string * option string :=
  if String.eqb (MfaSerial config) "" then (None, None)
  else (Some (MfaSerial config), Some (MfaToken config)).

(** A call that resolves MFA without the prompt: not a prompt; an elevate
    request carries the literal code; so does an assume-role request made
    from the master credentials, and one made from a session carries no
    MFA fields. *)
Definition mfa_without_prompt (config : Config) (e : Event) : Prop :=
  match e with
  | EvPrompt _ => False
  | EvGetSessionToken _ params =>
      (sts.gst_SerialNumber params, sts.gst_TokenCode params)
      = literal_mfa config
  | EvAssumeRole _ _ input =>
      (sts.SerialNumber input, sts.TokenCode input)
      = if NoSession config then literal_mfa config else (None, None)
  | _ => True
  end.

(** An assume-role call, if this is one, is made with the credentials
    [base]. *)
Definition assumed_from (base : credentials.Value) (e : Event) : Prop :=
  match e with
  | EvAssumeRole b _ _ => b = base
  | _ => True
  end.

(** The resolution from [s] to [s'] ended with [SetExpiration], called
    with the expiration of the token behind the credential [v] and the
    default window. *)
Definition expiration_recorded (s s' : State) (v : credentials.Value)
    : Prop :=
  exists tok rest,
    v = value_of tok /\
    emitted s s'
    = EvSetExpiration (sts.Expiration tok) DefaultExpirationWindow :: rest /\
    Expiry s' = Some (sts.Expiration tok, DefaultExpirationWindow).

(** ** More readings of the trace *)

Definition is_master_get (e : Event) : bool :=
  match e with EvMasterGet => true | _ => false end.

Definition is_clock_read (e : Event) : bool :=
  match e with EvNow => true | _ => false end.

(** The error code, if any, that the collaborator gave to the call [e]
    when the history was [h].  A failed read of the session store is not
    counted: the provider takes it for a miss. *)
Definition failure_of (env : Env) (config : Config) (h : History)
    (e : Event) : option string :=
  match e with
  | EvMasterGet => snd (master_Get env h)
  | EvPrompt message => snd (MfaPrompt config h message)
  | EvGetSessionToken region params =>
      match client_GetSessionToken env h region params with
      | inl code => Some code
      | inr _ => None
      end
  | EvAssumeRole base region input =>
      match client_AssumeRole env h base region input with
      | inl code => Some code
      | inr _ => None
      end
  | EvSessionsStore profile mfaSerial session =>
      keyring_write_failure env h profile mfaSerial session
  | _ => None
  end.

(** The call made before [e], if there is one in [older], did not fail. *)
Definition after_success (env : Env) (config : Config)
    (older base : History) (e : Event) : Prop :=
  match older with
  | previous :: before =>
      failure_of env config (before ++ base)%list previous = None
  | [] => True
  end.

(** [each_call P base h]: [P older base e] holds of every call [e] of [h],
    where [older] are the calls of [h] made before [e] and [base] is the
    history before [h]. *)
Fixpoint each_call (P : History -> History -> Event -> Prop)
    (base h : History) : Prop :=
  match h with
  | [] => True
  | e :: older => P older base e /\ each_call P base older
  end.

(** The token code of a network request. *)
Definition token_code (e : Event) : option (option string) :=
  match e with
  | EvGetSessionToken _ params => Some (sts.gst_TokenCode params)
  | EvAssumeRole _ _ input => Some (sts.TokenCode input)
  | _ => None
  end.

(** The serial number of a network request. *)
Definition serial_number (e : Event) : option (option string) :=
  match e with
  | EvGetSessionToken _ params => Some (sts.gst_SerialNumber params)
  | EvAssumeRole _ _ input => Some (sts.SerialNumber input)
  | _ => None
  end.

(** A request made right after a prompt carries the answer of that
    prompt. *)
Definition sends_prompted_code (config : Config) (older base : History)
    (e : Event) : Prop :=
  match older with
  | EvPrompt message :: before =>
      forall code, token_code e = Some code ->
        code = Some (fst (MfaPrompt config (before ++ base)%list message))
  | _ => True
  end.

(** A store in the session cache uses the key of the configuration and
    comes right after an elevate call that answered with the stored
    token. *)
Definition stores_elevated_token (env : Env) (config : Config)
    (older base : History) (e : Event) : Prop :=
  match e with
  | EvSessionsStore profile mfaSerial session =>
      profile = CredentialsName config /\
      mfaSerial = MfaSerial config /\
      match older with
      | EvGetSessionToken region params :: before =>
          client_GetSessionToken env (before ++ base)%list region params
          = inr session
      | _ => False
      end
  | _ => True
  end.

(** The fields of a request that come straight from the configuration. *)
Definition request_from_config (config : Config) (e : Event) : Prop :=
  match e with
  | EvGetSessionToken region params =>
      region = Region config /\
      sts.gst_DurationSeconds params
      = Some (Seconds (SessionDuration config))
  | EvAssumeRole _ region input =>
      region = Region config /\
      sts.RoleArn input = Some (RoleARN config) /\
      sts.DurationSeconds input
      = Some (Seconds (AssumeRoleDuration config)) /\
      sts.ExternalId input
      = (if String.eqb (ExternalID config) "" then None
         else Some (ExternalID config)) /\
      (RoleSessionName config <> "" ->
       sts.RoleSessionName input = Some (RoleSessionName config))
  | _ => True
  end.

(** The MFA fields of a request: a code exactly when there is a serial
    number; on a request that presents MFA (an elevate call, or an
    assume-role call made without a session) the serial number is the
    configured device, exactly when one is configured; an assume-role call
    made from a session has neither. *)
Definition mfa_fields_paired (config : Config) (e : Event) : Prop :=
  match serial_number e, token_code e with
  | Some serial, Some code =>
      (serial = None <-> code = None) /\
      serial
      = (if is_assume e && negb (NoSession config) then None
         else if String.eqb (MfaSerial config) "" then None
         else Some (MfaSerial config))
  | _, _ => True
  end.

(** A prompt is made for the configured device, with the message that
    names it, and only without a literal code. *)
Definition prompt_for_device (config : Config) (e : Event) : Prop :=
  match e with
  | EvPrompt message =>
      MfaSerial config <> "" /\
      MfaToken config = "" /\
      message = "Enter token for " +:+ MfaSerial config +:+ ": "
  | _ => True
  end.

(** An assume-role request has a session name, and it is not empty. *)
Definition session_name_set (e : Event) : Prop :=
  match e with
  | EvAssumeRole _ _ input =>
      exists name, sts.RoleSessionName input = Some name /\ name <> ""
  | _ => True
  end.

(** A use of the session store names the key of the configuration. *)
Definition uses_own_key (config : Config) (e : Event) : Prop :=
  match e with
  | EvSessionsRetrieve profile mfaSerial =>
      (profile, mfaSerial) = key config
  | EvSessionsStore profile mfaSerial _ =>
      (profile, mfaSerial) = key config
  | _ => True
  end.

(** A [SetExpiration] call uses the default window, five minutes in
    nanoseconds, and its arguments are what the expiry holds at [s']. *)
Definition expiry_mirrors (s' : State) (e : Event) : Prop :=
  match e with
  | EvSetExpiration expiration window =>
      window = 300000000000 /\ Expiry s' = Some (expiration, window)
  | _ => True
  end.

(** A token whose access key id the log lines can slice. *)
Definition sliceable (session : sts.Credentials) : Prop :=
  (4 <= String.length (sts.AccessKeyId session))%nat.

(** Every token the STS client answers with is sliceable. *)
Definition sts_tokens_sliceable (env : Env) : Prop :=
  (forall h region params session,
      client_GetSessionToken env h region params = inr session ->
      sliceable session) /\
  (forall h base region input session,
      client_AssumeRole env h base region input = inr session ->
      sliceable session).

(** The state after [n] successive calls of [Retrieve], whatever they
    return. *)
Fixpoint Retrieve_times (env : Env) (config : Config) (n : nat)
    (s : State) : State :=
  match n with
  | O => s
  | S n' => Retrieve_times env config n' (snd (Retrieve env config s))
  end.

(** The lookup that [getSessionToken] would make at [s] is a hit: no
    refresh is forced and the session store answers with a token. *)
Definition cache_hit (env : Env) (config : Config) (s : State) : bool :=
  negb (forceSessionRefresh s) &&
  match fst (sessions_Retrieve env (CredentialsName config)
               (MfaSerial config) s) with
  | Returns (Ok _) => true
  | _ => false
  end.

(** The run [calls], made after the history [base], ended on a call of
    the kind [stoppers] that failed. *)
Definition stopped_by (env : Env) (config : Config) (base : History)
    (stoppers : Event -> bool) (calls : History) : Prop :=
  exists ev rest code,
    calls = ev :: rest /\
    stoppers ev = true /\
    failure_of env config (rest ++ base)%list ev = Some code.

(** Durations for which [Seconds] is what the code computes. *)
Definition whole_seconds_exact (d : Z) : Prop :=
  Z.abs d < 16777216 * Second.

(** ** Concrete collaborators and configurations *)

Module Fixtures.
Definition master : credentials.Value :=
  credentials.mkValue "AKIAMASTER000001" "master-secret" "" "keyring".

Definition fresh : sts.Credentials :=
  sts.mkCredentials "ASIAFRESH0000001" "fresh-secret" "fresh-token"
    1700003600000000000.

Definition cached : sts.Credentials :=
  sts.mkCredentials "ASIACACHED000001" "cached-secret" "cached-token"
    1700000000000000000.

Definition role : sts.Credentials :=
  sts.mkCredentials "ASIAROLE00000001" "role-secret" "role-token"
    1700000900000000000.

(** Every collaborator answers. *)
Definition env_up : Env :=
  mkEnv (fun _ => (master, None))
        (fun _ _ _ => inr fresh)
        (fun _ _ _ _ => inr role)
        (fun _ _ _ => None)
        (fun _ _ _ _ => None)
        (fun _ => 1699999999000000000).

(** The elevate call fails. *)
Definition env_elevate_down : Env :=
  mkEnv (fun _ => (master, None))
        (fun _ _ _ => inl "RequestError")
        (fun _ _ _ _ => inr role)
        (fun _ _ _ => None)
        (fun _ _ _ _ => None)
        (fun _ => 1699999999000000000).

(** The keyring cannot be read, and cannot be written either. *)
Definition env_keyring_down : Env :=
  mkEnv (fun _ => (master, None))
        (fun _ _ _ => inr fresh)
        (fun _ _ _ _ => inr role)
        (fun _ _ _ => Some "keyring locked")
        (fun _ _ _ _ => Some "keyring locked")
        (fun _ => 1699999999000000000).

Definition prompt_answers : History -> string -> string * option string :=
  fun _ _ => ("123456", None).

Definition prompt_cancelled : History -> string -> string * option string :=
  fun _ _ => ("", Some "cancelled").

Definition hour : Z := 3600 * Second.

(** account "prod", no role, no MFA device: the SessionOnly path *)
Definition cfg_session : Config :=
  mkConfig "prod" "" "" "" "" "" prompt_answers false hour hour
    "us-east-1".

(** the same with an MFA device and a prompt that the user cancels *)
Definition cfg_session_mfa_cancelled : Config :=
  mkConfig "prod" "" "" "" "arn:aws:iam::1:mfa/dev" "" prompt_cancelled
    false hour hour "us-east-1".

(** role from the master credentials, MFA device, code from the prompt *)
Definition cfg_role_mfa_prompt : Config :=
  mkConfig "prod" "arn:aws:iam::1:role/Admin" "" "" "arn:aws:iam::1:mfa/dev"
    "" prompt_answers true hour hour "us-east-1".

(** role from the master credentials, MFA device and a literal code *)
Definition cfg_role_mfa_literal : Config :=
  mkConfig "prod" "arn:aws:iam::1:role/Admin" "" "" "arn:aws:iam::1:mfa/dev"
    "654321" prompt_cancelled true hour hour "us-east-1".

(** session, then role *)
Definition cfg_session_role : Config :=
  mkConfig "prod" "arn:aws:iam::1:role/Admin" "" "" "" "" prompt_answers
    false hour hour "us-east-1".

(** a new provider over an empty session store *)
Definition s_empty : State := mkState false None ∅ [].

(** a new provider over a store that holds a session for ("prod", "") *)
Definition s_cached : State :=
  mkState false None {[ ("prod", "") := cached ]} [].

Definition elevate_request : sts.GetSessionTokenInput :=
  sts.mkGetSessionTokenInput (Some 3600) None None.

Definition mfa_message : string :=
  "Enter token for arn:aws:iam::1:mfa/dev: ".
(** The assume-role call fails. *)
Definition env_assume_down : Env :=
  mkEnv (fun _ => (master, None))
        (fun _ _ _ => inr fresh)
        (fun _ _ _ _ => inl "AccessDenied")
        (fun _ _ _ => None)
        (fun _ _ _ _ => None)
        (fun _ => 1699999999000000000).

(** The keyring can be read but not written. *)
Definition env_store_down : Env :=
  mkEnv (fun _ => (master, None))
        (fun _ _ _ => inr fresh)
        (fun _ _ _ _ => inr role)
        (fun _ _ _ => None)
        (fun _ _ _ _ => Some "keyring locked")
        (fun _ => 1699999999000000000).

(** A clock that advances by one nanosecond with every recorded call. *)
Definition env_ticking : Env :=
  mkEnv (fun _ => (master, None))
        (fun _ _ _ => inr fresh)
        (fun _ _ _ _ => inr role)
        (fun _ _ _ => None)
        (fun _ _ _ _ => None)
        (fun h => 1699999999000000000 + Z.of_nat (length h)).
End Fixtures.

(** ** Symbolic execution of the provider *)

Lemma emitted_app (s s' : State) (evs : History) :
  trace s' = (evs ++ trace s)%list -> emitted s s' = evs.
Proof.
  intros H. unfold emitted. rewrite H, length_app, Nat.add_sub.
  apply take_app_length.
Qed.

Ltac prefix_of t base :=
  lazymatch t with
  | base => constr:(@nil Event)
  | ?e :: ?r => let p := prefix_of r base in constr:(e :: p)
  end.

(** Replace [emitted s s'] by the list of events that [s'] has on top of
    [s], once the trace of [s'] is an explicit extension of that of [s]. *)
Ltac read_emitted :=
  repeat match goal with
  | |- context [emitted ?s ?s'] =>
      let t := eval cbn [trace record set_Expiry set_sessions
                         set_forceSessionRefresh] in (trace s') in
      let b := eval cbn [trace record set_Expiry set_sessions
                         set_forceSessionRefresh] in (trace s) in
      let p := prefix_of t b in
      rewrite (emitted_app s s' p eq_refl)
  end.

Ltac unfold_provider :=
  cbv beta iota zeta delta
    [Retrieve run_path getCredsWithSession getCredsWithSessionAndRole
     getCredsWithRole getSessionToken createSessionToken
     assumeRoleFromSession assumeRoleFromCreds roleSessionName
     masterCreds_Get masterCreds_Expire config_MfaPrompt
     sts_GetSessionToken sts_AssumeRole time_Now_UnixNano
     sessions_Retrieve sessions_Store SetExpiration
     get_forceSessionRefresh last4 bind ret panic ask
     go_error go_result fmap option_fmap option_map negb andb].

(** Split on the innermost scrutinee: an answer of a collaborator, a test
    on the configuration, or the refresh flag. *)
Ltac step :=
  match goal with
  | |- context [match ?x with _ => _ end] =>
      lazymatch x with
      | context [match _ with _ => _ end] => fail
      | _ => destruct x eqn:?
      end
  end.

Ltac run :=
  unfold_provider; repeat (step; cbn [fst snd] in * ).

Ltac each_event :=
  repeat match goal with |- Forall _ _ => constructor end.

(** Use the recorded outcome of a test to settle the same test in the
    goal. *)
Ltac use_tests :=
  repeat match goal with
  | H : String.eqb ?a ?b = _ |- context [String.eqb ?a ?b] => rewrite H
  | H : NoSession ?c = _ |- context [NoSession ?c] => rewrite H
  end.

Ltac eqb_facts :=
  repeat match goal with
  | H : String.eqb _ _ = true |- _ => apply String.eqb_eq in H
  | H : String.eqb _ _ = false |- _ => apply String.eqb_neq in H
  end.

Ltac same_session :=
  intros;
  repeat match goal with
  | H : Returns _ = Returns _ |- _ => inversion H; clear H; subst
  end;
  repeat match goal with
  | H : ?b = _ |- context [if ?b then _ else _] => rewrite H
  end.

(** Rewrite with the answers of the collaborators that the run has
    fixed. *)
Ltac settle_failure :=
  cbn [failure_of app trace record set_Expiry set_sessions
       set_forceSessionRefresh] in *;
  repeat match goal with
  | H : ?x = _ |- context [?x] => rewrite H
  end.

(** Either the call was made once, or the run ended on a failed call. *)
Ltac one_or_stopped :=
  first [ left; reflexivity
        | right; eexists _, _, _; split; [reflexivity|];
          split; [reflexivity|]; settle_failure; reflexivity ].

(** [createSessionToken] always returns, and touches neither the flag, the
    expiry nor the session store. *)
Lemma createSessionToken_frame (env : Env) (config : Config) (s : State) :
  let s' := snd (createSessionToken env config s) in
  forceSessionRefresh s' = forceSessionRefresh s /\
  Expiry s' = Expiry s /\
  sessions s' = sessions s.
Proof. run; auto. Qed.

Lemma createSessionToken_returns (env : Env) (config : Config) (s : State) :
  exists r, fst (createSessionToken env config s) = Returns r.
Proof. run; eauto. Qed.

(** With the flag set, [getSessionToken] is [createSessionToken]: the
    session store is neither read nor written. *)
Lemma getSessionToken_forced (env : Env) (config : Config) (s : State) :
  forceSessionRefresh s = true ->
  getSessionToken env config s = createSessionToken env config s.
Proof.
  intros Hflag. unfold getSessionToken, bind, get_forceSessionRefresh.
  rewrite Hflag. reflexivity.
Qed.

(** ** Properties *)

(** *** The error of a failed session elevation (C1) *)

(** When [getSessionToken] fails on a session path, [Retrieve] hands the
    caller the zero credential with a nil error: lines 83 and 103 return
    [nil] where line 108 returns [err]. *)
Lemma session_error_dropped (env : Env) (config : Config) (s s' : State)
    (e : error) :
  NoSession config = false ->
  getSessionToken env config s = (Returns (Err e), s') ->
  Retrieve env config s = (Returns (credentials.zero, None), s').
Proof.
  intros Hno Hget.
  unfold Retrieve. rewrite Hno. cbn [andb].
  destruct (String.eqb _ _);
    [unfold getCredsWithSession | unfold getCredsWithSessionAndRole];
    unfold bind; rewrite Hget; reflexivity.
Qed.

(** C1 - code evaluated at the failing input: account "prod", no role, no
    MFA device, empty session store, and an elevate call that fails with
    "RequestError".  [getSessionToken] reports the error; [Retrieve]
    returns the zero credential and a nil error instead of that error. *)
Theorem elevate_error_not_returned :
  fst (getSessionToken Fixtures.env_elevate_down Fixtures.cfg_session
         Fixtures.s_empty)
  = Returns (Err (Foreign "RequestError")) /\
  fst (Retrieve Fixtures.env_elevate_down Fixtures.cfg_session
         Fixtures.s_empty)
  = Returns (credentials.zero, None).
Proof. split; vm_compute; reflexivity. Qed.

(** *** Cache hit (C5) *)

(** C5 - with the refresh flag not set, a hit of the session store for
    the key (account identity, MFA device identifier) makes
    [getSessionToken] return the stored token; the only call made is the
    read of the store, so there is no elevate call and no MFA prompt, and
    nothing depends on the expiration of the token. *)
Theorem getSessionToken_cache_hit (env : Env) (config : Config)
    (s s1 : State) (session : sts.Credentials) :
  forceSessionRefresh s = false ->
  sessions_Retrieve env (CredentialsName config) (MfaSerial config) s
  = (Returns (Ok session), s1) ->
  getSessionToken env config s = (Returns (Ok session), s1) /\
  emitted s s1
  = [EvSessionsRetrieve (CredentialsName config) (MfaSerial config)] /\
  count is_elevate (emitted s s1) = 0%nat /\
  count is_prompt (emitted s s1) = 0%nat.
Proof.
  intros Hflag Hhit.
  assert (Hs1 : s1 = record (EvSessionsRetrieve (CredentialsName config)
                               (MfaSerial config)) s).
  { unfold sessions_Retrieve in Hhit. congruence. }
  split.
  - unfold getSessionToken, bind, get_forceSessionRefresh.
    rewrite Hflag, Hhit. reflexivity.
  - subst s1. read_emitted. repeat split.
Qed.

Lemma getSessionToken_cache_hit_witness :
  getSessionToken Fixtures.env_up Fixtures.cfg_session Fixtures.s_cached
  = (Returns (Ok Fixtures.cached),
     record (EvSessionsRetrieve "prod" "") Fixtures.s_cached) /\
  emitted Fixtures.s_cached
    (record (EvSessionsRetrieve "prod" "") Fixtures.s_cached)
  = [EvSessionsRetrieve "prod" ""] /\
  count is_elevate
    (emitted Fixtures.s_cached
       (record (EvSessionsRetrieve "prod" "") Fixtures.s_cached)) = 0%nat /\
  count is_prompt
    (emitted Fixtures.s_cached
       (record (EvSessionsRetrieve "prod" "") Fixtures.s_cached)) = 0%nat.
Proof.
  apply (getSessionToken_cache_hit Fixtures.env_up Fixtures.cfg_session
           Fixtures.s_cached _ Fixtures.cached).
  - reflexivity.
  - reflexivity.
Defined.

(** *** The missing-role error (C10) *)

(** C10 - with an empty role [Retrieve] runs the master accessor or
    [getCredsWithSession], never a role-assuming function; and [Retrieve]
    never returns an error made by [errors.New]: the only two such errors
    of the file are the "No role defined" ones of [getCredsWithRole] and
    [assumeRoleFromCreds]. *)
Theorem Retrieve_never_missing_role (env : Env) (config : Config)
    (s : State) :
  (RoleARN config = "" ->
   Retrieve env config s
   = if NoSession config then masterCreds_Get env s
     else getCredsWithSession env config s) /\
  (forall v text,
      fst (Retrieve env config s) <> Returns (v, Some (errors_New text))).
Proof.
  split.
  - intros Hrole. unfold Retrieve. rewrite Hrole.
    destruct (NoSession config); reflexivity.
  - intros v text. run; congruence.
Qed.

Lemma Retrieve_never_missing_role_witness :
  Retrieve Fixtures.env_up Fixtures.cfg_session Fixtures.s_empty
  = getCredsWithSession Fixtures.env_up Fixtures.cfg_session
      Fixtures.s_empty.
Proof.
  exact (proj1 (Retrieve_never_missing_role Fixtures.env_up
                  Fixtures.cfg_session Fixtures.s_empty) eq_refl).
Defined.

(** *** Path selection (C4) *)

(** The dispatch of [Retrieve] and, per path, the calls it can make at
    most and the credentials it uses. *)
Lemma Retrieve_path_calls (env : Env) (config : Config) (s : State) :
  let path := path_of (NoSession config) (hasRole config) in
  let r := fst (Retrieve env config s) in
  let calls := emitted s (snd (Retrieve env config s)) in
  Retrieve env config s = run_path env config path s /\
  match path with
  | MasterOnly =>
      r = Returns (fst (master_Get env (trace s)),
                   go_error (snd (master_Get env (trace s)))) /\
      calls = [EvMasterGet]
  | RoleFromMaster =>
      count is_elevate calls = 0%nat /\
      count is_cache_read calls = 0%nat /\
      count is_cache_write calls = 0%nat /\
      (count is_assume calls <= 1)%nat /\
      Forall (assumed_from (fst (master_Get env (trace s)))) calls /\
      (forall v, r = Returns (v, None) -> count is_assume calls = 1%nat)
  | SessionOnly =>
      count is_assume calls = 0%nat /\
      (count is_elevate calls <= 1)%nat /\
      (forall session,
          fst (getSessionToken env config s) = Returns (Ok session) ->
          r = if Z.of_nat (String.length (sts.AccessKeyId session)) - 4 <? 0
              then Panics else Returns (value_of session, None))
  | SessionThenRole =>
      (count is_elevate calls <= 1)%nat /\
      (count is_assume calls <= 1)%nat /\
      (forall session,
          fst (getSessionToken env config s) = Returns (Ok session) ->
          count is_assume calls = 1%nat /\
          Forall (assumed_from (value_of session)) calls)
  end.
Proof.
  cbv zeta. unfold hasRole, Retrieve.
  destruct (NoSession config), (String.eqb (RoleARN config) "") eqn:Hrole;
    cbn [andb negb path_of run_path]; (split; [reflexivity|]).
  - run; read_emitted; repeat split; reflexivity.
  - run; read_emitted; repeat split; cbn; try lia; each_event; cbn; easy.
  - run; read_emitted; repeat split; cbn; try lia; same_session;
      reflexivity.
  - run; read_emitted; repeat split; cbn; try lia; same_session;
      try reflexivity; each_event; cbn; easy.
Qed.

(** On a session path the elevate call is made exactly once, unless the
    lookup was a hit (then it is not made) or the run ended on a failed
    prompt. *)
Lemma elevate_unless_hit_or_cancelled (env : Env) (config : Config)
    (s : State) :
  NoSession config = false ->
  let calls := emitted s (snd (Retrieve env config s)) in
  if cache_hit env config s then count is_elevate calls = 0%nat
  else count is_elevate calls = 1%nat \/
       stopped_by env config (trace s) is_prompt calls.
Proof.
  cbv zeta. unfold cache_hit, stopped_by. intros Hno.
  run; read_emitted; try discriminate; first [reflexivity | one_or_stopped].
Qed.

(** On RoleFromMaster the assume-role call is made exactly once, unless
    the run ended on a failed master accessor or a failed prompt. *)
Lemma assume_unless_earlier_failure (env : Env) (config : Config)
    (s : State) :
  NoSession config = true ->
  hasRole config = true ->
  let calls := emitted s (snd (Retrieve env config s)) in
  count is_assume calls = 1%nat \/
  stopped_by env config (trace s)
    (fun ev => is_master_get ev || is_prompt ev) calls.
Proof.
  cbv zeta. unfold hasRole, stopped_by. intros Hno Hrole.
  run; read_emitted; try discriminate; one_or_stopped.
Qed.

Lemma getSessionToken_never_assumes (env : Env) (config : Config)
    (s : State) :
  count is_assume (emitted s (snd (getSessionToken env config s))) = 0%nat.
Proof. run; read_emitted; reflexivity. Qed.

(** Without a session token no assume-role call is made. *)
Lemma no_assume_without_session (env : Env) (config : Config) (s : State)
    (e : error) :
  NoSession config = false ->
  fst (getSessionToken env config s) = Returns (Err e) ->
  count is_assume (emitted s (snd (Retrieve env config s))) = 0%nat.
Proof.
  intros Hno Hget.
  pose proof (getSessionToken_never_assumes env config s) as Hcount.
  destruct (getSessionToken env config s) as [r s'] eqn:Hrun.
  cbn [fst snd] in Hget, Hcount. subst r.
  rewrite (session_error_dropped env config s s' e Hno Hrun). exact Hcount.
Qed.

(** C4 - [Retrieve] runs the path that [path_of] gives for the two
    booleans (NoSession, a role is configured), and on each path makes
    exactly the network calls of that path.  MasterOnly: the answer of the
    master accessor, verbatim, and no other call.  RoleFromMaster: no
    elevate call, no use of the session store, and one assume-role call,
    made from the master credential: exactly one, unless the run ended
    before it on a failed master accessor or a failed prompt.  SessionOnly:
    no assume-role call; the elevate call is not made on a hit of the
    session store and is otherwise made exactly once, unless the run ended
    before it on a failed prompt; the credential is the token of
    [getSessionToken].  SessionThenRole: the elevate call as on SessionOnly;
    once [getSessionToken] has given a token, exactly one assume-role
    call, made from that token, and none when it has failed. *)
Theorem Retrieve_path_selection (env : Env) (config : Config) (s : State) :
  let path := path_of (NoSession config) (hasRole config) in
  let r := fst (Retrieve env config s) in
  let calls := emitted s (snd (Retrieve env config s)) in
  Retrieve env config s = run_path env config path s /\
  match path with
  | MasterOnly =>
      r = Returns (fst (master_Get env (trace s)),
                   go_error (snd (master_Get env (trace s)))) /\
      calls = [EvMasterGet]
  | RoleFromMaster =>
      count is_elevate calls = 0%nat /\
      count is_cache_read calls = 0%nat /\
      count is_cache_write calls = 0%nat /\
      (count is_assume calls <= 1)%nat /\
      Forall (assumed_from (fst (master_Get env (trace s)))) calls /\
      (forall v, r = Returns (v, None) -> count is_assume calls = 1%nat) /\
      (count is_assume calls = 1%nat \/
       stopped_by env config (trace s)
         (fun ev => is_master_get ev || is_prompt ev) calls)
  | SessionOnly =>
      count is_assume calls = 0%nat /\
      (count is_elevate calls <= 1)%nat /\
      (forall session,
          fst (getSessionToken env config s) = Returns (Ok session) ->
          r = if Z.of_nat (String.length (sts.AccessKeyId session)) - 4 <? 0
              then Panics else Returns (value_of session, None)) /\
      (if cache_hit env config s then count is_elevate calls = 0%nat
       else count is_elevate calls = 1%nat \/
            stopped_by env config (trace s) is_prompt calls)
  | SessionThenRole =>
      (count is_elevate calls <= 1)%nat /\
      (count is_assume calls <= 1)%nat /\
      (forall session,
          fst (getSessionToken env config s) = Returns (Ok session) ->
          count is_assume calls = 1%nat /\
          Forall (assumed_from (value_of session)) calls) /\
      (forall e,
          fst (getSessionToken env config s) = Returns (Err e) ->
          count is_assume calls = 0%nat) /\
      (if cache_hit env config s then count is_elevate calls = 0%nat
       else count is_elevate calls = 1%nat \/
            stopped_by env config (trace s) is_prompt calls)
  end.
Proof.
  pose proof (Retrieve_path_calls env config s) as Hcalls.
  pose proof (elevate_unless_hit_or_cancelled env config s) as Helevate.
  pose proof (assume_unless_earlier_failure env config s) as Hassume.
  pose proof (fun e => no_assume_without_session env config s e) as Hnone.
  cbv zeta in *. destruct Hcalls as [Hpath Hcalls].
  split; [exact Hpath|]. clear Hpath.
  destruct (NoSession config), (hasRole config);
    cbn [path_of] in *.
  - destruct Hcalls as (? & ? & ? & ? & ? & ?).
    repeat (split; [assumption|]). apply Hassume; reflexivity.
  - exact Hcalls.
  - destruct Hcalls as (? & ? & ?).
    repeat (split; [assumption|]).
    split; [intros e; apply Hnone; reflexivity|].
    apply Helevate; reflexivity.
  - destruct Hcalls as (? & ? & ?).
    repeat (split; [assumption|]). apply Helevate; reflexivity.
Qed.

Lemma Retrieve_path_selection_witness :
  count is_assume
    (emitted Fixtures.s_cached
       (snd (Retrieve Fixtures.env_up Fixtures.cfg_session_role
               Fixtures.s_cached))) = 1%nat /\
  Forall (assumed_from (value_of Fixtures.cached))
    (emitted Fixtures.s_cached
       (snd (Retrieve Fixtures.env_up Fixtures.cfg_session_role
               Fixtures.s_cached))).
Proof.
  exact (proj1 (proj2 (proj2 (proj2 (Retrieve_path_selection
                                       Fixtures.env_up
                                       Fixtures.cfg_session_role
                                       Fixtures.s_cached))))
           Fixtures.cached eq_refl).
Defined.

(** *** The literal MFA code (C7) *)

(** C7 - with a literal MFA code configured, or with no MFA device, no
    call of [Retrieve] is a prompt, on any path; every request that
    presents MFA carries the device and the literal code, and without a
    device no request carries MFA fields. *)
Theorem literal_code_never_prompts (env : Env) (config : Config)
    (s : State) :
  MfaToken config <> "" \/ MfaSerial config = "" ->
  Forall (mfa_without_prompt config)
    (emitted s (snd (Retrieve env config s))).
Proof.
  intros Hcode. run; read_emitted; each_event.
  all: cbn [mfa_without_prompt]; try exact I.
  all: unfold literal_mfa; use_tests; try reflexivity.
  all: eqb_facts; destruct Hcode; congruence.
Qed.

Lemma literal_code_never_prompts_witness :
  Forall (mfa_without_prompt Fixtures.cfg_role_mfa_literal)
    (emitted Fixtures.s_empty
       (snd (Retrieve Fixtures.env_up Fixtures.cfg_role_mfa_literal
               Fixtures.s_empty))).
Proof.
  apply (literal_code_never_prompts Fixtures.env_up
           Fixtures.cfg_role_mfa_literal Fixtures.s_empty).
  left. discriminate.
Defined.

(** *** Failures of the session store (C8) *)

(** What [getSessionToken] does with the failures of the session store.
    A failed read, whatever its error, continues with [createSessionToken]
    as a miss does, and the error of the read appears nowhere in the
    result; when the store of the fresh token then fails,
    [getSessionToken] returns the error of the store, and only a store
    that succeeds gives the token. *)
Theorem cache_read_failure_is_miss_write_failure_is_error (env : Env)
    (config : Config) (s s1 : State) (e : error) :
  forceSessionRefresh s = false ->
  sessions_Retrieve env (CredentialsName config) (MfaSerial config) s
  = (Returns (Err e), s1) ->
  (forall e' s2,
      createSessionToken env config s1 = (Returns (Err e'), s2) ->
      getSessionToken env config s = (Returns (Err e'), s2)) /\
  (forall session s2 err s3,
      createSessionToken env config s1 = (Returns (Ok session), s2) ->
      sessions_Store env (CredentialsName config) (MfaSerial config)
        session s2 = (Returns err, s3) ->
      getSessionToken env config s
      = (Returns match err with
                 | Some w => Err w
                 | None => Ok session
                 end, s3)).
Proof.
  intros Hflag Hread.
  unfold getSessionToken, bind, get_forceSessionRefresh.
  rewrite Hflag, Hread. split.
  - intros e' s2 Hc. rewrite Hc. reflexivity.
  - intros session s2 err s3 Hc Hstore. rewrite Hc, Hstore.
    destruct err; reflexivity.
Qed.

Lemma cache_read_failure_is_miss_write_failure_is_error_witness :
  getSessionToken Fixtures.env_keyring_down Fixtures.cfg_session
    Fixtures.s_cached
  = (Returns (Err (Foreign "keyring locked")),
     record (EvSessionsStore "prod" "" Fixtures.fresh)
       (record (EvGetSessionToken "us-east-1" Fixtures.elevate_request)
          (record (EvSessionsRetrieve "prod" "") Fixtures.s_cached))).
Proof.
  destruct (cache_read_failure_is_miss_write_failure_is_error
              Fixtures.env_keyring_down Fixtures.cfg_session
              Fixtures.s_cached
              (record (EvSessionsRetrieve "prod" "") Fixtures.s_cached)
              (Foreign "keyring locked") eq_refl eq_refl) as [_ Hstore].
  exact (Hstore Fixtures.fresh _ (Some (Foreign "keyring locked")) _
           eq_refl eq_refl).
Defined.

(** The error of a failed store does not reach the caller of [Retrieve]:
    on the session paths, after a failed read and a fresh token, a store
    that fails with [w] makes [getSessionToken] return [w], and [Retrieve]
    return the zero credential with a nil error. *)
Lemma store_error_dropped (env : Env) (config : Config)
    (s s1 s2 s3 : State) (e w : error) (session : sts.Credentials) :
  NoSession config = false ->
  forceSessionRefresh s = false ->
  sessions_Retrieve env (CredentialsName config) (MfaSerial config) s
  = (Returns (Err e), s1) ->
  createSessionToken env config s1 = (Returns (Ok session), s2) ->
  sessions_Store env (CredentialsName config) (MfaSerial config) session s2
  = (Returns (Some w), s3) ->
  getSessionToken env config s = (Returns (Err w), s3) /\
  Retrieve env config s = (Returns (credentials.zero, None), s3).
Proof.
  intros Hno Hflag Hread Hcreate Hstore.
  assert (Hget : getSessionToken env config s = (Returns (Err w), s3)).
  { unfold getSessionToken, bind, get_forceSessionRefresh.
    rewrite Hflag, Hread, Hcreate, Hstore. reflexivity. }
  split; [exact Hget|].
  exact (session_error_dropped env config s s3 w Hno Hget).
Qed.

(** C8 - code evaluated at the failing input: SessionOnly path, empty
    session store, an elevate call that succeeds and a keyring that
    cannot be written.  The miss leads to the elevate call and the store
    of the fresh token is attempted; [getSessionToken] returns the error
    of the store; but [Retrieve] returns the zero credential with a nil
    error, so the failed store is not surfaced to its caller. *)
Theorem store_failure_not_surfaced :
  let s' := snd (Retrieve Fixtures.env_store_down Fixtures.cfg_session
                   Fixtures.s_empty) in
  emitted Fixtures.s_empty s'
  = [EvSessionsStore "prod" "" Fixtures.fresh;
     EvGetSessionToken "us-east-1" Fixtures.elevate_request;
     EvSessionsRetrieve "prod" ""] /\
  fst (getSessionToken Fixtures.env_store_down Fixtures.cfg_session
         Fixtures.s_empty)
  = Returns (Err (Foreign "keyring locked")) /\
  sessions s' !! ("prod", "") = None /\
  fst (Retrieve Fixtures.env_store_down Fixtures.cfg_session
         Fixtures.s_empty)
  = Returns (credentials.zero, None).
Proof. vm_compute. repeat split. Qed.

(** *** Storing the fresh token, and the refresh flag (C2) *)

(** C2, as stated, fails after [ForceRefresh]: over an empty session
    store the next [Retrieve] obtains a fresh token from the elevate call
    and returns it, yet the store has no entry for the key afterwards and
    the flag is still set. *)
Lemma forced_refresh_neither_stores_nor_clears :
  let s1 := snd (ForceRefresh Fixtures.s_empty) in
  let s' := snd (Retrieve Fixtures.env_up Fixtures.cfg_session s1) in
  fst (Retrieve Fixtures.env_up Fixtures.cfg_session s1)
  = Returns (value_of Fixtures.fresh, None) /\
  count is_elevate (emitted s1 s') = 1%nat /\
  sessions s' !! key Fixtures.cfg_session <> Some Fixtures.fresh /\
  forceSessionRefresh s' <> false.
Proof. vm_compute. repeat split; discriminate. Qed.

(** C2, amended - no resolution changes the refresh flag; and when the
    flag is not set, the read of the session store fails and
    [createSessionToken] then gives a fresh token, the last call of
    [getSessionToken] is the store of that token under the key (account
    identity, MFA device identifier), and after a store that succeeds the
    token is returned and is the entry of the key, whatever was there
    before. *)
Theorem fresh_token_stored_on_miss (env : Env) (config : Config)
    (s : State) :
  forceSessionRefresh (snd (Retrieve env config s)) = forceSessionRefresh s /\
  (forall s1 s2 e session,
      forceSessionRefresh s = false ->
      sessions_Retrieve env (CredentialsName config) (MfaSerial config) s
      = (Returns (Err e), s1) ->
      createSessionToken env config s1 = (Returns (Ok session), s2) ->
      let s' := snd (getSessionToken env config s) in
      trace s'
      = EvSessionsStore (CredentialsName config) (MfaSerial config) session
          :: trace s2 /\
      (fst (sessions_Store env (CredentialsName config) (MfaSerial config)
              session s2) = Returns None ->
       fst (getSessionToken env config s) = Returns (Ok session) /\
       sessions s' !! key config = Some session)).
Proof.
  split.
  - run;
      cbn [forceSessionRefresh record set_Expiry set_sessions]; congruence.
  - intros s1 s2 e session Hflag Hread Hcreate.
    unfold getSessionToken, bind, get_forceSessionRefresh.
    rewrite Hflag, Hread, Hcreate. unfold sessions_Store.
    destruct (keyring_write_failure _ _ _ _ _) eqn:Hw; cbn.
    + split; [reflexivity | discriminate].
    + split; [reflexivity|]. intros _. split; [reflexivity|].
      apply lookup_insert_eq.
Qed.

Lemma fresh_token_stored_on_miss_witness :
  let s' := snd (getSessionToken Fixtures.env_up Fixtures.cfg_session
                   Fixtures.s_empty) in
  forceSessionRefresh
    (snd (Retrieve Fixtures.env_up Fixtures.cfg_session Fixtures.s_empty))
  = false /\
  trace s'
  = [EvSessionsStore "prod" "" Fixtures.fresh;
     EvGetSessionToken "us-east-1" Fixtures.elevate_request;
     EvSessionsRetrieve "prod" ""] /\
  sessions s' !! ("prod", "") = Some Fixtures.fresh.
Proof.
  destruct (fresh_token_stored_on_miss Fixtures.env_up Fixtures.cfg_session
              Fixtures.s_empty) as [Hflag Hmiss].
  destruct (Hmiss (record (EvSessionsRetrieve "prod" "") Fixtures.s_empty)
              (record (EvGetSessionToken "us-east-1" Fixtures.elevate_request)
                 (record (EvSessionsRetrieve "prod" "") Fixtures.s_empty))
              NotFoundError Fixtures.fresh eq_refl eq_refl eq_refl)
    as (Htrace & Hstored).
  destruct (Hstored eq_refl) as (_ & Hentry).
  cbv zeta. split; [exact Hflag | split; [exact Htrace | exact Hentry]].
Defined.

(** *** Forced refresh (C3) *)

(** With the flag set no path of [Retrieve] reads or writes the session
    store. *)
Lemma forced_refresh_never_stores (env : Env) (config : Config)
    (s : State) :
  forceSessionRefresh s = true ->
  let s' := snd (Retrieve env config s) in
  count is_cache_read (emitted s s') = 0%nat /\
  count is_cache_write (emitted s s') = 0%nat /\
  sessions s' = sessions s.
Proof.
  intros Hflag. run; read_emitted; try congruence; repeat split.
Qed.

(** C3 - code evaluated at the failing input: the session store holds a
    token for ("prod", ""), [ForceRefresh] is called, and the elevate call
    succeeds.  [Retrieve] does not read the store, makes the elevate call
    and returns the fresh token, but never calls the store: the entry of
    the key is still the old token. *)
Theorem forced_refresh_leaves_stale_entry :
  let s1 := snd (ForceRefresh Fixtures.s_cached) in
  let s' := snd (Retrieve Fixtures.env_up Fixtures.cfg_session s1) in
  forceSessionRefresh s1 = true /\
  fst (Retrieve Fixtures.env_up Fixtures.cfg_session s1)
  = Returns (value_of Fixtures.fresh, None) /\
  emitted s1 s'
  = [EvSetExpiration (sts.Expiration Fixtures.fresh) DefaultExpirationWindow;
     EvGetSessionToken "us-east-1" Fixtures.elevate_request] /\
  sessions s' !! ("prod", "") = Some Fixtures.cached.
Proof. vm_compute. repeat split. Qed.

(** *** A failed MFA prompt (C6) *)

(** C6 - code evaluated at the failing input: SessionOnly path with an MFA
    device, no literal code, an empty session store and a prompt the user
    cancels.  The prompt is invoked and fails, [getSessionToken] reports
    its error, the store is not written; but [Retrieve] returns the zero
    credential with a nil error, not an error. *)
Theorem cancelled_prompt_returns_nil_error :
  let s' := snd (Retrieve Fixtures.env_up Fixtures.cfg_session_mfa_cancelled
                   Fixtures.s_empty) in
  emitted Fixtures.s_empty s'
  = [EvPrompt Fixtures.mfa_message;
     EvSessionsRetrieve "prod" "arn:aws:iam::1:mfa/dev"] /\
  fst (getSessionToken Fixtures.env_up Fixtures.cfg_session_mfa_cancelled
         Fixtures.s_empty)
  = Returns (Err (Foreign "cancelled")) /\
  sessions s' = sessions Fixtures.s_empty /\
  fst (Retrieve Fixtures.env_up Fixtures.cfg_session_mfa_cancelled
         Fixtures.s_empty)
  = Returns (credentials.zero, None).
Proof. vm_compute. repeat split. Qed.

(** *** Recording the expiration (C9) *)

(** What the code does record.  A [Retrieve] that returns a nil error has
    on RoleFromMaster called [SetExpiration] last, with the expiration of
    the role credential it returns; on the session paths either the same
    holds for the token it returns, or [getSessionToken] had failed and
    the zero credential comes back with nothing recorded; on MasterOnly
    nothing is recorded. *)
Lemma SetExpiration_before_return (env : Env) (config : Config) (s : State)
    (v : credentials.Value) :
  fst (Retrieve env config s) = Returns (v, None) ->
  let s' := snd (Retrieve env config s) in
  match path_of (NoSession config) (hasRole config) with
  | MasterOnly =>
      count is_SetExpiration (emitted s s') = 0%nat /\ Expiry s' = Expiry s
  | RoleFromMaster => expiration_recorded s s' v
  | SessionOnly | SessionThenRole =>
      expiration_recorded s s' v \/
      ((exists e, fst (getSessionToken env config s) = Returns (Err e)) /\
       v = credentials.zero /\
       count is_SetExpiration (emitted s s') = 0%nat /\
       Expiry s' = Expiry s)
  end.
Proof.
  cbv zeta. unfold hasRole, Retrieve, expiration_recorded.
  destruct (NoSession config), (String.eqb (RoleARN config) "") eqn:Hrole;
    cbn [andb negb path_of].
  - run; read_emitted; intros; split; reflexivity.
  - run; read_emitted; intros H; try discriminate; inversion H; subst;
      eexists _, _; repeat split.
  - run; read_emitted; intros H; try discriminate; inversion H; subst;
      first [ left; eexists _, _; repeat split; fail
            | right; repeat split; eauto ].
  - run; read_emitted; intros H; try discriminate; inversion H; subst;
      first [ left; eexists _, _; repeat split; fail
            | right; repeat split; eauto ].
Qed.

(** C9 - code evaluated at the failing input: SessionOnly path, empty
    session store, failing elevate call.  [Retrieve] returns with a nil
    error, and [SetExpiration] has not been called. *)
Theorem nil_error_without_SetExpiration :
  let s' := snd (Retrieve Fixtures.env_elevate_down Fixtures.cfg_session
                   Fixtures.s_empty) in
  fst (Retrieve Fixtures.env_elevate_down Fixtures.cfg_session
         Fixtures.s_empty)
  = Returns (credentials.zero, None) /\
  count is_SetExpiration (emitted Fixtures.s_empty s') = 0%nat /\
  Expiry s' = None.
Proof. vm_compute. repeat split. Qed.

(** *** Scenarios *)

(** Account "prod", no role, session elevation on, empty store: one read
    of the store, one elevate call, the token stored under ("prod", ""),
    the token returned, and the expiry set to its expiration with the
    five-minute window. *)
Example scenario_session_only_miss :
  Retrieve Fixtures.env_up Fixtures.cfg_session Fixtures.s_empty
  = (Returns (value_of Fixtures.fresh, None),
     mkState false
       (Some (sts.Expiration Fixtures.fresh, 300 * Second))
       {[ ("prod", "") := Fixtures.fresh ]}
       [EvSetExpiration (sts.Expiration Fixtures.fresh) (300 * Second);
        EvSessionsStore "prod" "" Fixtures.fresh;
        EvGetSessionToken "us-east-1" Fixtures.elevate_request;
        EvSessionsRetrieve "prod" ""]).
Proof. vm_compute. reflexivity. Qed.

(** Account "prod" with a role, a token cached for ("prod", ""): no
    elevate call, one assume-role call from the cached token, under a
    session name made from the clock. *)
Example scenario_session_then_role_hit :
  let s' := snd (Retrieve Fixtures.env_up Fixtures.cfg_session_role
                   Fixtures.s_cached) in
  fst (Retrieve Fixtures.env_up Fixtures.cfg_session_role Fixtures.s_cached)
  = Returns (value_of Fixtures.role, None) /\
  count is_elevate (trace s') = 0%nat /\
  count is_assume (trace s') = 1%nat /\
  Forall (assumed_from (value_of Fixtures.cached)) (trace s') /\
  In EvNow (trace s').
Proof.
  vm_compute. repeat split; [each_event; cbn; easy | tauto].
Qed.

(** Account "prod" with a role, session elevation off, an MFA device and
    no literal code: one prompt, one assume-role call from the master
    credentials, no elevate call. *)
Example scenario_role_from_master_mfa :
  let s' := snd (Retrieve Fixtures.env_up Fixtures.cfg_role_mfa_prompt
                   Fixtures.s_empty) in
  fst (Retrieve Fixtures.env_up Fixtures.cfg_role_mfa_prompt Fixtures.s_empty)
  = Returns (value_of Fixtures.role, None) /\
  count is_prompt (trace s') = 1%nat /\
  count is_assume (trace s') = 1%nat /\
  count is_elevate (trace s') = 0%nat /\
  Forall (assumed_from Fixtures.master) (trace s').
Proof.
  vm_compute. repeat split. each_event; cbn; easy.
Qed.

(** ** More properties of the provider *)

Ltac unfold_requests :=
  cbv beta iota zeta delta
    [with_TokenCode with_SerialNumber with_ExternalId gst_with_TokenCode
     gst_with_SerialNumber sts.RoleArn sts.RoleSessionName
     sts.DurationSeconds sts.ExternalId sts.SerialNumber sts.TokenCode
     sts.gst_DurationSeconds sts.gst_SerialNumber sts.gst_TokenCode].

Ltac states :=
  cbn [Expiry sessions forceSessionRefresh trace record set_Expiry
       set_sessions set_forceSessionRefresh] in *.

(** Settle the answers of the collaborators that the run has fixed. *)
Ltac as_oracle :=
  cbn [failure_of app trace record set_Expiry set_sessions
       set_forceSessionRefresh] in *;
  repeat match goal with
  | H : ?x = _ |- context [?x] => rewrite H
  end.

(** *** The requests *)

(** X1 - for session and role durations of magnitude below 2^24 seconds,
    every request of [Retrieve] takes its fixed fields from the
    configuration: the region; for an elevate call the session duration in
    whole seconds; for an assume-role call the role, the role duration in
    whole seconds, the external id exactly when one is configured, and
    the configured session name when there is one. *)
Theorem requests_follow_config (env : Env) (config : Config) (s : State) :
  whole_seconds_exact (SessionDuration config) ->
  whole_seconds_exact (AssumeRoleDuration config) ->
  Forall (request_from_config config)
    (emitted s (snd (Retrieve env config s))).
Proof.
  intros _ _. run; read_emitted; each_event.
  all: cbn [request_from_config]; try exact I.
  all: unfold_requests; use_tests; repeat split; try reflexivity.
  all: intros; eqb_facts; congruence.
Qed.

Lemma requests_follow_config_witness :
  Forall (request_from_config Fixtures.cfg_role_mfa_literal)
    (emitted Fixtures.s_empty
       (snd (Retrieve Fixtures.env_up Fixtures.cfg_role_mfa_literal
               Fixtures.s_empty))).
Proof.
  apply (requests_follow_config Fixtures.env_up
           Fixtures.cfg_role_mfa_literal Fixtures.s_empty);
    unfold whole_seconds_exact; vm_compute; reflexivity.
Defined.

(** X2 - in every request of [Retrieve] the token code is present exactly
    when the serial number is; an elevate call and an assume-role call made
    without a session carry the configured device as serial number, exactly
    when a device is configured; an assume-role call made from a session
    carries neither. *)
Theorem mfa_fields_follow_device (env : Env) (config : Config) (s : State) :
  Forall (mfa_fields_paired config)
    (emitted s (snd (Retrieve env config s))).
Proof.
  run; read_emitted; each_event.
  all: cbv beta iota delta [mfa_fields_paired serial_number token_code
                             is_assume]; try exact I.
  all: unfold_requests; use_tests; cbn [andb negb].
  all: split; [split; intros; congruence | reflexivity].
Qed.

(** *** The prompt *)

(** X3 - [Retrieve] prompts at most once; only with a device configured
    and no literal code, with the message "Enter token for <device>: ";
    and the request made right after a prompt carries the answer of that
    prompt as its token code. *)
Theorem prompt_only_for_device (env : Env) (config : Config) (s : State) :
  let calls := emitted s (snd (Retrieve env config s)) in
  (count is_prompt calls <= 1)%nat /\
  Forall (prompt_for_device config) calls /\
  each_call (sends_prompted_code config) (trace s) calls.
Proof.
  cbv zeta. run; read_emitted.
  all: split; [cbn; lia|]; split.
  all: try (each_event; cbn [prompt_for_device]; try exact I;
            eqb_facts; repeat split; assumption).
  all: cbn [each_call sends_prompted_code]; repeat split.
  all: intros code Hcode; cbn [token_code] in Hcode;
    first [discriminate | injection Hcode as <-; reflexivity].
Qed.

(** *** Errors *)

(** X4 - an error that [Retrieve] returns is the error of the last call it
    made, unchanged, and on the session paths that call is the assume-role
    call; with session elevation off the converse holds too: when the last
    call (master accessor, prompt or assume-role) failed, [Retrieve]
    returns its error. *)
Theorem returned_error_is_last_failure (env : Env) (config : Config)
    (s : State) :
  let r := fst (Retrieve env config s) in
  let calls := emitted s (snd (Retrieve env config s)) in
  (forall v e,
      r = Returns (v, Some e) ->
      exists ev rest code,
        calls = ev :: rest /\
        failure_of env config (rest ++ trace s)%list ev = Some code /\
        e = Foreign code /\
        (NoSession config = false -> is_assume ev = true)) /\
  (forall ev rest code,
      NoSession config = true ->
      calls = ev :: rest ->
      failure_of env config (rest ++ trace s)%list ev = Some code ->
      exists v, r = Returns (v, Some (Foreign code))).
Proof.
  cbv zeta. split.
  - run; read_emitted; intros v e H; try discriminate;
      injection H as <- <-;
      eexists _, _, _; (split; [reflexivity|]);
      (split; [as_oracle; reflexivity|]);
      (split; [reflexivity|]); intros; first [reflexivity | congruence].
  - run; read_emitted; intros ev rest code Hno Hcalls Hfail;
      try discriminate; injection Hcalls as <- <-;
      cbn [failure_of app trace record set_Expiry set_sessions
           set_forceSessionRefresh] in *;
      repeat match goal with
      | H : ?x = _, H' : context [match ?x with _ => _ end] |- _ =>
          rewrite H in H'
      end;
      first [ discriminate
            | eexists; f_equal; f_equal; f_equal; congruence
            | congruence ].
Qed.

Lemma returned_error_is_last_failure_witness :
  exists v,
    fst (Retrieve Fixtures.env_assume_down Fixtures.cfg_role_mfa_literal
           Fixtures.s_empty)
    = Returns (v, Some (Foreign "AccessDenied")).
Proof.
  refine (proj2 (returned_error_is_last_failure Fixtures.env_assume_down
                   Fixtures.cfg_role_mfa_literal Fixtures.s_empty)
            _ [EvNow; EvMasterGet] "AccessDenied" eq_refl eq_refl eq_refl).
Defined.

(** X5 - when [Retrieve] returns an error, [SetExpiration] has not been
    called and the expiry is what it was; and on every path but MasterOnly
    the credential returned with the error is the zero value. *)
Theorem error_return_records_nothing (env : Env) (config : Config)
    (s : State) (v : credentials.Value) (e : error) :
  fst (Retrieve env config s) = Returns (v, Some e) ->
  let s' := snd (Retrieve env config s) in
  Expiry s' = Expiry s /\
  count is_SetExpiration (emitted s s') = 0%nat /\
  (path_of (NoSession config) (hasRole config) <> MasterOnly ->
   v = credentials.zero).
Proof.
  cbv zeta. unfold hasRole.
  run; read_emitted; intros H; try discriminate; injection H as <- <-;
    repeat split; cbn [path_of negb]; congruence.
Qed.

Lemma error_return_records_nothing_witness :
  Expiry (snd (Retrieve Fixtures.env_assume_down
                 Fixtures.cfg_role_mfa_literal Fixtures.s_empty))
  = Expiry Fixtures.s_empty.
Proof.
  exact (proj1 (error_return_records_nothing Fixtures.env_assume_down
                  Fixtures.cfg_role_mfa_literal Fixtures.s_empty
                  credentials.zero (Foreign "AccessDenied") eq_refl)).
Defined.

(** X6 - no call follows a failed one: in a run of [Retrieve] the master
    accessor, the prompt, the elevate call, the assume-role call and the
    store of a session are each followed by another call only when they
    succeeded. *)
Theorem Retrieve_stops_at_first_failure (env : Env) (config : Config)
    (s : State) :
  each_call (after_success env config) (trace s)
    (emitted s (snd (Retrieve env config s))).
Proof.
  run; read_emitted; states;
    cbn [each_call after_success failure_of app]; repeat split;
    repeat match goal with
    | H : ?x = _ |- context [?x] => rewrite H
    end; reflexivity.
Qed.

(** X7 - [getCredsWithRole] and [assumeRoleFromCreds] return an error of
    their own making exactly when the role is empty, and then it is "No
    role defined", returned before any call and with the state as it
    was. *)
Theorem missing_role_fails_fast (env : Env) (config : Config) (s : State)
    (creds : credentials.Value) :
  ((exists v text,
       fst (getCredsWithRole env config s)
       = Returns (v, Some (errors_New text))) <->
   RoleARN config = "") /\
  ((exists text,
       fst (assumeRoleFromCreds env config creds s)
       = Returns (Err (errors_New text))) <->
   RoleARN config = "") /\
  (RoleARN config = "" ->
   getCredsWithRole env config s
   = (Returns (credentials.zero, Some (errors_New "No role defined")), s) /\
   assumeRoleFromCreds env config creds s
   = (Returns (Err (errors_New "No role defined")), s)).
Proof.
  split; [|split].
  - split.
    + intros (v & text & H). revert H.
      run; intros H; try discriminate; eqb_facts; assumption.
    + intros Hrole. unfold getCredsWithRole. rewrite Hrole. cbn. eauto.
  - split.
    + intros (text & H). revert H.
      run; intros H; try discriminate; eqb_facts; assumption.
    + intros Hrole. unfold assumeRoleFromCreds. rewrite Hrole. cbn. eauto.
  - intros Hrole. unfold getCredsWithRole, assumeRoleFromCreds.
    rewrite Hrole. split; reflexivity.
Qed.

Lemma missing_role_fails_fast_witness :
  getCredsWithRole Fixtures.env_up Fixtures.cfg_session Fixtures.s_empty
  = (Returns (credentials.zero, Some (errors_New "No role defined")),
     Fixtures.s_empty).
Proof.
  exact (proj1 (proj2 (proj2 (missing_role_fails_fast Fixtures.env_up
                                Fixtures.cfg_session Fixtures.s_empty
                                Fixtures.master)) eq_refl)).
Defined.

(** *** The expiry *)

(** X8 - [Retrieve] calls [SetExpiration] at most once, always with the
    window of five minutes (300000000000 ns), and afterwards the expiry
    holds the arguments of that call; a run without the call leaves the
    expiry as it was. *)
Theorem expiry_mirrors_SetExpiration (env : Env) (config : Config)
    (s : State) :
  let s' := snd (Retrieve env config s) in
  let calls := emitted s s' in
  (count is_SetExpiration calls <= 1)%nat /\
  Forall (expiry_mirrors s') calls /\
  (count is_SetExpiration calls = 0%nat -> Expiry s' = Expiry s).
Proof.
  cbv zeta. run; read_emitted; (split; [cbn; lia|]); split.
  all: try (each_event; cbn [expiry_mirrors]; try exact I; split;
            reflexivity).
  all: cbn; intros; first [reflexivity | discriminate].
Qed.

Lemma expiry_mirrors_SetExpiration_witness :
  Expiry (snd (Retrieve Fixtures.env_elevate_down Fixtures.cfg_session
                 Fixtures.s_empty))
  = Expiry Fixtures.s_empty.
Proof.
  exact (proj2 (proj2 (expiry_mirrors_SetExpiration
                         Fixtures.env_elevate_down Fixtures.cfg_session
                         Fixtures.s_empty)) eq_refl).
Defined.

(** X9 - a role credential that [Retrieve] returns is the answer of the
    assume-role call it made, and [SetExpiration], the last call, got the
    expiration of that answer; the one other nil-error return on a role
    path is the zero credential of a failed session, with no assume-role
    call made. *)
Theorem role_credential_provenance (env : Env) (config : Config)
    (s : State) (v : credentials.Value) :
  hasRole config = true ->
  fst (Retrieve env config s) = Returns (v, None) ->
  let calls := emitted s (snd (Retrieve env config s)) in
  (exists base region input rest role,
      calls
      = EvSetExpiration (sts.Expiration role) DefaultExpirationWindow
          :: EvAssumeRole base region input :: rest /\
      client_AssumeRole env (rest ++ trace s)%list base region input
      = inr role /\
      v = value_of role) \/
  (NoSession config = false /\ v = credentials.zero /\
   count is_assume calls = 0%nat).
Proof.
  cbv zeta. unfold hasRole. intros Hrole.
  run; read_emitted; states; intros H; try discriminate;
    injection H as <-.
  all: first [ left; eexists _, _, _, _, _;
               (split; [reflexivity|]); split; [eassumption|reflexivity]
             | right; repeat split; reflexivity ].
Qed.

Lemma role_credential_provenance_witness :
  let calls :=
    emitted Fixtures.s_cached
      (snd (Retrieve Fixtures.env_up Fixtures.cfg_session_role
              Fixtures.s_cached)) in
  (exists base region input rest role,
      calls
      = EvSetExpiration (sts.Expiration role) DefaultExpirationWindow
          :: EvAssumeRole base region input :: rest /\
      client_AssumeRole Fixtures.env_up
        (rest ++ trace Fixtures.s_cached)%list base region input
      = inr role /\
      value_of Fixtures.role = value_of role) \/
  (NoSession Fixtures.cfg_session_role = false /\
   value_of Fixtures.role = credentials.zero /\
   count is_assume calls = 0%nat).
Proof.
  apply (role_credential_provenance Fixtures.env_up
           Fixtures.cfg_session_role Fixtures.s_cached
           (value_of Fixtures.role)); reflexivity.
Defined.

(** *** The session store *)

(** X10 - [Retrieve] reads the session store at most once and uses it
    only under the key (CredentialsName, MfaSerial) of its configuration;
    the entries of all other keys are as they were, and with session
    elevation off the whole store is. *)
Theorem session_store_isolation (env : Env) (config : Config) (s : State) :
  let s' := snd (Retrieve env config s) in
  let calls := emitted s s' in
  Forall (uses_own_key config) calls /\
  (count is_cache_read calls <= 1)%nat /\
  (forall k, k <> key config -> sessions s' !! k = sessions s !! k) /\
  (NoSession config = true -> sessions s' = sessions s).
Proof.
  cbv zeta. run; read_emitted; states.
  all: split; [each_event; cbn [uses_own_key]; try exact I; reflexivity|].
  all: split; [cbn; lia|].
  all: split; [|intros; first [reflexivity | discriminate]].
  all: intros k Hk; unfold key in Hk;
    first [reflexivity | apply lookup_insert_ne; congruence].
Qed.

Lemma session_store_isolation_witness :
  sessions (snd (Retrieve Fixtures.env_up Fixtures.cfg_session
                   Fixtures.s_empty)) !! ("staging", "")
  = sessions Fixtures.s_empty !! ("staging", "").
Proof.
  apply (proj1 (proj2 (proj2 (session_store_isolation Fixtures.env_up
                                Fixtures.cfg_session Fixtures.s_empty)))).
  discriminate.
Defined.

(** X11 - [Retrieve] writes the session store at most once, and what it
    stores is the token that the elevate call made just before answered
    with. *)
Theorem only_elevated_tokens_are_stored (env : Env) (config : Config)
    (s : State) :
  let calls := emitted s (snd (Retrieve env config s)) in
  (count is_cache_write calls <= 1)%nat /\
  each_call (stores_elevated_token env config) (trace s) calls.
Proof.
  cbv zeta. run; read_emitted; states.
  all: split; [cbn; lia|].
  all: cbn [each_call stores_elevated_token app]; repeat split; assumption.
Qed.

(** X12 - after an unforced [getSessionToken] has returned a token, the
    store holds that token under the key of the configuration, and a
    second [getSessionToken], if the keyring can be read, returns the same
    token with the read of the store as its only call. *)
Theorem stored_session_is_found_again (env : Env) (config : Config)
    (s : State) (session : sts.Credentials) :
  forceSessionRefresh s = false ->
  fst (getSessionToken env config s) = Returns (Ok session) ->
  let s1 := snd (getSessionToken env config s) in
  sessions s1 !! key config = Some session /\
  (keyring_read_failure env (trace s1) (CredentialsName config)
     (MfaSerial config) = None ->
   getSessionToken env config s1
   = (Returns (Ok session),
      record (EvSessionsRetrieve (CredentialsName config)
                (MfaSerial config)) s1)).
Proof.
  cbv zeta. intros Hflag Hget.
  assert (Hentry : sessions (snd (getSessionToken env config s))
                   !! key config = Some session
                   /\ forceSessionRefresh (snd (getSessionToken env config s))
                      = false).
  { revert Hget. run; states; intros H; try discriminate;
      injection H as <-; (split; [|assumption]); unfold key;
      first [assumption | apply lookup_insert_eq | congruence]. }
  destruct Hentry as [Hentry Hflag1]. split; [exact Hentry|].
  intros Hread. unfold key in Hentry.
  generalize dependent (snd (getSessionToken env config s)). intros s1 **.
  unfold getSessionToken, bind, get_forceSessionRefresh, sessions_Retrieve.
  rewrite Hflag1, Hread, Hentry. reflexivity.
Qed.

Lemma stored_session_is_found_again_witness :
  sessions (snd (getSessionToken Fixtures.env_up Fixtures.cfg_session
                   Fixtures.s_empty)) !! key Fixtures.cfg_session
  = Some Fixtures.fresh.
Proof.
  exact (proj1 (stored_session_is_found_again Fixtures.env_up
                  Fixtures.cfg_session Fixtures.s_empty Fixtures.fresh
                  eq_refl eq_refl)).
Defined.

(** *** The order of the calls *)

(** X13 - with session elevation off [Retrieve] calls the master accessor
    exactly once, and first; with it on [Retrieve] never calls the master
    accessor itself and, unless a refresh is forced, its first call is the
    read of the session store under the key of the configuration. *)
Theorem first_call_of_Retrieve (env : Env) (config : Config) (s : State) :
  let calls := emitted s (snd (Retrieve env config s)) in
  (if NoSession config then
     last calls = Some EvMasterGet /\ count is_master_get calls = 1%nat
   else
     count is_master_get calls = 0%nat /\
     (forceSessionRefresh s = false ->
      last calls
      = Some (EvSessionsRetrieve (CredentialsName config)
                (MfaSerial config)))).
Proof.
  cbv zeta. run; read_emitted; (split; [reflexivity|]); intros;
    first [reflexivity | congruence].
Qed.

Lemma first_call_of_Retrieve_witness :
  last (emitted Fixtures.s_cached
          (snd (Retrieve Fixtures.env_up Fixtures.cfg_session_role
                  Fixtures.s_cached)))
  = Some (EvSessionsRetrieve "prod" "").
Proof.
  exact (proj2 (first_call_of_Retrieve Fixtures.env_up
                  Fixtures.cfg_session_role Fixtures.s_cached) eq_refl).
Defined.

(** *** Panics *)

Lemma sliceable_slices (session : sts.Credentials) :
  sliceable session ->
  (Z.of_nat (String.length (sts.AccessKeyId session)) - 4 <? 0) = false.
Proof. unfold sliceable. intros H. apply Z.ltb_ge. lia. Qed.

(** X14 - when every token that STS answers with, and every token in the
    session store, has an access key id of at least four bytes, [Retrieve]
    does not panic, and the tokens in the store afterwards are again of
    that kind. *)
Theorem sliceable_tokens_never_panic (env : Env) (config : Config)
    (s : State) :
  sts_tokens_sliceable env ->
  map_Forall (fun _ session => sliceable session) (sessions s) ->
  fst (Retrieve env config s) <> Panics /\
  map_Forall (fun _ session => sliceable session)
    (sessions (snd (Retrieve env config s))).
Proof.
  intros [Helevate Hassume] Hstore.
  run; states;
    (split;
     [|first [assumption | apply map_Forall_insert_2; [|assumption]]]).
  all: try discriminate.
  all: repeat match goal with
       | H : client_GetSessionToken _ _ _ _ = inr _ |- _ =>
           apply Helevate in H
       | H : client_AssumeRole _ _ _ _ _ = inr _ |- _ =>
           apply Hassume in H
       | H : sessions _ !! _ = Some _ |- _ =>
           apply Hstore in H
       end.
  all: try assumption.
  all: repeat match goal with
       | H : sliceable _ |- _ => apply sliceable_slices in H
       end; congruence.
Qed.

Lemma sliceable_tokens_never_panic_witness :
  fst (Retrieve Fixtures.env_up Fixtures.cfg_session_role Fixtures.s_cached)
  <> Panics.
Proof.
  refine (proj1 (sliceable_tokens_never_panic Fixtures.env_up
                   Fixtures.cfg_session_role Fixtures.s_cached _ _)).
  - split; intros;
      match goal with
      | H : _ = inr _ |- _ => simpl in H; injection H as <-
      end; unfold sliceable; simpl; lia.
  - apply map_Forall_singleton. unfold sliceable. simpl. lia.
Defined.

(** *** The role-session name *)

Lemma pretty_N_go_length (x : N) (acc : string) :
  (String.length acc <= String.length (pretty_N_go x acc))%nat.
Proof.
  revert acc. induction (N.lt_wf_0 x) as [x _ IH]. intros acc.
  destruct (decide (x = 0)%N) as [->|Hx].
  - rewrite pretty_N_go_0. lia.
  - rewrite pretty_N_go_step by lia.
    etrans; [|apply IH; apply N.div_lt; lia]. cbn. lia.
Qed.

Lemma pretty_N_nonempty (x : N) : pretty x <> "".
Proof.
  unfold pretty, pretty_N. destruct (decide (x = 0)%N) as [->|Hx].
  - discriminate.
  - rewrite pretty_N_go_step by lia. intros H.
    pose proof (pretty_N_go_length (x `div` 10)
                  (String (pretty_N_char (x `mod` 10)) "")) as Hlen.
    rewrite H in Hlen. cbn in Hlen. lia.
Qed.

Lemma pretty_Z_nonempty (x : Z) : pretty x <> "".
Proof.
  destruct x as [|p|p]; unfold pretty, pretty_Z.
  - discriminate.
  - apply (pretty_N_nonempty (Npos p)).
  - discriminate.
Qed.

(** X15 - every assume-role request of [Retrieve] carries a role-session
    name that is not empty, also when none is configured. *)
Theorem session_name_never_empty (env : Env) (config : Config) (s : State) :
  Forall session_name_set (emitted s (snd (Retrieve env config s))).
Proof.
  run; read_emitted; each_event; cbn [session_name_set]; try exact I.
  all: eexists; (split; [reflexivity|]).
  all: first [apply pretty_Z_nonempty | eqb_facts; assumption].
Qed.

(** X16 - without a configured name, [roleSessionName] at two moments
    whose clock readings differ gives two different names. *)
Theorem synthesized_names_differ (env : Env) (config : Config)
    (s1 s2 : State) :
  RoleSessionName config = "" ->
  time_Now env (trace s1) <> time_Now env (trace s2) ->
  fst (roleSessionName env config s1) <> fst (roleSessionName env config s2).
Proof.
  intros Hname Hclock. unfold roleSessionName. rewrite Hname. cbn.
  intros H. injection H as H. apply Hclock. eapply (inj pretty). exact H.
Qed.

Lemma synthesized_names_differ_witness :
  fst (roleSessionName Fixtures.env_ticking Fixtures.cfg_session_role
         Fixtures.s_empty)
  <> fst (roleSessionName Fixtures.env_ticking Fixtures.cfg_session_role
            (record EvNow Fixtures.s_empty)).
Proof.
  apply (synthesized_names_differ Fixtures.env_ticking
           Fixtures.cfg_session_role Fixtures.s_empty
           (record EvNow Fixtures.s_empty)).
  - reflexivity.
  - simpl. lia.
Defined.

(** *** Forced refresh, again *)

Lemma Retrieve_trace_grows (env : Env) (config : Config) (s : State) :
  trace (snd (Retrieve env config s))
  = (emitted s (snd (Retrieve env config s)) ++ trace s)%list.
Proof. run; read_emitted; reflexivity. Qed.

Lemma Retrieve_keeps_flag (env : Env) (config : Config) (s : State) :
  forceSessionRefresh (snd (Retrieve env config s)) = forceSessionRefresh s.
Proof. run; states; congruence. Qed.

Lemma Retrieve_times_trace_grows (env : Env) (config : Config) (n : nat)
    (s : State) :
  trace (Retrieve_times env config n s)
  = (emitted s (Retrieve_times env config n s) ++ trace s)%list.
Proof.
  revert s. induction n as [|n IH]; intros s; cbn [Retrieve_times].
  - rewrite (emitted_app s s []); reflexivity.
  - rewrite (emitted_app s _
               (emitted (snd (Retrieve env config s))
                  (Retrieve_times env config n (snd (Retrieve env config s)))
                ++ emitted s (snd (Retrieve env config s)))%list).
    + rewrite <- app_assoc, <- Retrieve_trace_grows. apply IH.
    + rewrite <- app_assoc, <- Retrieve_trace_grows. apply IH.
Qed.

Lemma count_app (f : Event -> bool) (h1 h2 : History) :
  count f (h1 ++ h2)%list = (count f h1 + count f h2)%nat.
Proof. unfold count. rewrite List.filter_app, length_app. reflexivity. Qed.

(** X17 - [ForceRefresh] expires the master credentials, and its effect on
    the session store does not end: after it, however many times
    [Retrieve] is called, the flag stays set, the store is neither read
    nor written, and its content is what it was. *)
Theorem ForceRefresh_is_permanent (env : Env) (config : Config) (n : nat)
    (s : State) :
  let s1 := snd (ForceRefresh s) in
  let sn := Retrieve_times env config n s1 in
  emitted s s1 = [EvMasterExpire] /\
  forceSessionRefresh sn = true /\
  sessions sn = sessions s /\
  count is_cache_read (emitted s1 sn) = 0%nat /\
  count is_cache_write (emitted s1 sn) = 0%nat.
Proof.
  cbv zeta. split; [apply (emitted_app s _ [EvMasterExpire]); reflexivity|].
  assert (Hforced : forceSessionRefresh (snd (ForceRefresh s)) = true)
    by reflexivity.
  change (sessions s) with (sessions (snd (ForceRefresh s))).
  generalize dependent (snd (ForceRefresh s)). clear s.
  induction n as [|n IH]; intros s Hforced; cbn [Retrieve_times].
  - rewrite (emitted_app s s []); [|reflexivity]. repeat split. exact Hforced.
  - destruct (forced_refresh_never_stores env config s Hforced)
      as (Hread & Hwrite & Hsessions).
    pose proof (Retrieve_keeps_flag env config s) as Hflag.
    rewrite Hforced in Hflag.
    destruct (IH _ Hflag) as (Hf & Hs & Hr & Hw).
    rewrite (emitted_app s _
               (emitted (snd (Retrieve env config s))
                  (Retrieve_times env config n (snd (Retrieve env config s)))
                ++ emitted s (snd (Retrieve env config s)))%list).
    + rewrite !count_app, Hr, Hw, Hread, Hwrite, Hs, Hsessions. auto.
    + rewrite <- app_assoc, <- Retrieve_trace_grows.
      apply Retrieve_times_trace_grows.
Qed.
